(** * ioc-rix-sp1k1-calc: the update-propagation layer of the SP1K1 mono IOC

    A shallow embedding of [ioc_rix_sp1k1_calc.py].  Motor read-backs are
    IEEE binary64 numbers (Rocq's primitive floats), the slots of the IOC
    are optional floats ([None] in Python), the coroutines of the class are
    functions from the instance to an outcome, the instance afterwards and
    the trace of what they did at the boundary (calls into [rix_utilities],
    writes to the four records). *)

From Stdlib Require Import ZArith Bool List String Ascii Lia.
From Stdlib Require Import Floats.
Import ListNotations.
Set Warnings "-inexact-float".

(** ** Constants *)

(** [DEADBAND = 0.05]: ignore motor moves smaller than this number. *)
Definition DEADBAND : float := 0.05%float.

(** ** numpy *)

Module np.

(** [np.isclose(a, b, rtol, atol)] on two binary64 scalars, with
    [equal_nan] left at its default: the rounded distance is compared with
    [atol + rtol * abs(b)], the result only counts for a finite [b], and
    equal operands (infinities included) are close. *)
Definition isclose (a b rtol atol : float) : bool :=
  (((abs (a - b) <=? atol + rtol * abs b) && is_finite b) || (a =? b))%float.

End np.

(** ** Python values and exceptions *)

Inductive pyval : Type :=
| PyInt (z : Z)
| PyFloat (f : float)
| PyStr (s : string).

Inductive exn : Type := Exception (msg : string).

Inductive outcome (A : Type) : Type :=
| Returned (a : A)
| Raised (e : exn).
Arguments Returned {A} a.
Arguments Raised {A} e.

(** ** The stand-in for [rix.db]

    [sys.modules["rix.db"] = NoneRixDB()]: references to [rix.db] inside
    the utilities file resolve to an instance of this class. *)

Module NoneRixDB.

Inductive pyobject : Type :=
| PyNone
| PyString (s : string)
| PyObject (repr : string).

Definition nl : string := String "010"%char EmptyString.

(** The docstring of the class, as the source has it. *)
Definition __doc__ : string :=
  nl ++ "    Replacement for rix.db hutch-python imports." ++ nl ++ nl ++
  "    We need to ignore any such imports if they are present in rix_utilities.py" ++ nl ++
  "    because this SIOC needs to start up without loading the entire rix" ++ nl ++
  "    beamline." ++ nl ++ "    ".

Definition __getattr__ (name : string) : pyobject := PyNone.

Section AttributeAccess.

(** The [__name__] of the module the class statement runs in: it depends on
    how the file is loaded. *)
Variable module_name : string.

(** What the running interpreter supplies besides: the attributes of
    [object] ([__class__], [__init__], [__repr__], ...) and, from Python
    3.13 on, the bookkeeping it adds to every class ([__firstlineno__],
    [__static_attributes__]).  Not written in the repository, a parameter
    here. *)
Variable builtin_namespace : string -> option pyobject.

(** What the class statement creates, as an instance sees it: the
    docstring, the method, the name of the defining module, the dictionary
    of the instance (empty: nothing ever assigns an attribute) and the slot
    for weak references ([None]: no weak reference to the stub is ever
    taken). *)
Definition class_namespace (name : string) : option pyobject :=
  if String.eqb name "__doc__" then Some (PyString __doc__)
  else if String.eqb name "__getattr__"
       then Some (PyObject "<bound method NoneRixDB.__getattr__>")
  else if String.eqb name "__module__" then Some (PyString module_name)
  else if String.eqb name "__dict__" then Some (PyObject "{}")
  else if String.eqb name "__weakref__" then Some PyNone
  else None.

(** The normal lookup. *)
Definition __getattribute__ (name : string) : option pyobject :=
  match class_namespace name with
  | Some v => Some v
  | None => builtin_namespace name
  end.

(** [stub.name]: Python falls back on [__getattr__] only when the normal
    lookup finds nothing. *)
Definition getattr (name : string) : outcome pyobject :=
  match __getattribute__ name with
  | Some v => Returned v
  | None => Returned (__getattr__ name)
  end.

End AttributeAccess.

(** As the specification words it: whatever the name, the access yields
    [None]. *)
Definition attribute_is_None_as_stated (module_name : string)
    (builtin_namespace : string -> option pyobject) (name : string) : Prop :=
  getattr module_name builtin_namespace name = Returned PyNone.

(** A sample of the interpreter's part. *)
Definition sample_builtins (name : string) : option pyobject :=
  if String.eqb name "__class__" then Some (PyObject "<class 'NoneRixDB'>")
  else None.

End NoneRixDB.

(** ** The calculation module *)

(** Modelled from the spec: [rix_utilities] is loaded at start-up from
    [DYNAMIC_PATH] and is not part of the repository.  Its three functions
    are parameters of the development: pure functions of their arguments
    that either return or raise.  [calc_E] returns the pair (energy, cff);
    a result that does not unpack into two names raises at the call, before
    anything is written, and counts as [Raised]. *)
Record RixUtilities : Type := {
  calc_E : float -> float -> outcome (pyval * pyval);
  calc_BW : float -> float -> float -> outcome pyval;
  get_grating : unit -> outcome pyval
}.

(** ** The instance *)

(** A record served by the IOC: the value last handed to [write] and the
    timestamp that came with it.  [None] stands for a record no recompute
    step has written yet: it still carries the stamp caproto gave it when
    it was built, a reading of the clock that differs from record to record
    and that the program neither reads nor sets. *)
Record pvproperty : Type := {
  value : pyval;
  timestamp : option float
}.

Record Ioc_rix_sp1k1_calc : Type := {
  g_pi_value : option float;
  m_pi_value : option float;
  exit_gap_value : option float;
  g_h_value : option float;
  energy : pvproperty;
  cff : pvproperty;
  bandwidth : pvproperty;
  grating : pvproperty
}.

(** The instance as the class statement and [__init__] build it: the slots
    unset, the records at their declared values and not yet written. *)
Definition __init__ : Ioc_rix_sp1k1_calc := {|
  g_pi_value := None;
  m_pi_value := None;
  exit_gap_value := None;
  g_h_value := None;
  energy := {| value := PyFloat 0; timestamp := None |};
  cff := {| value := PyFloat 0; timestamp := None |};
  bandwidth := {| value := PyFloat 0; timestamp := None |};
  grating := {| value := PyStr ""; timestamp := None |}
|}.

Definition set_g_pi_value (x : float) (self : Ioc_rix_sp1k1_calc) :=
  {| g_pi_value := Some x; m_pi_value := m_pi_value self;
     exit_gap_value := exit_gap_value self; g_h_value := g_h_value self;
     energy := energy self; cff := cff self;
     bandwidth := bandwidth self; grating := grating self |}.

Definition set_m_pi_value (x : float) (self : Ioc_rix_sp1k1_calc) :=
  {| g_pi_value := g_pi_value self; m_pi_value := Some x;
     exit_gap_value := exit_gap_value self; g_h_value := g_h_value self;
     energy := energy self; cff := cff self;
     bandwidth := bandwidth self; grating := grating self |}.

Definition set_exit_gap_value (x : float) (self : Ioc_rix_sp1k1_calc) :=
  {| g_pi_value := g_pi_value self; m_pi_value := m_pi_value self;
     exit_gap_value := Some x; g_h_value := g_h_value self;
     energy := energy self; cff := cff self;
     bandwidth := bandwidth self; grating := grating self |}.

Definition set_g_h_value (x : float) (self : Ioc_rix_sp1k1_calc) :=
  {| g_pi_value := g_pi_value self; m_pi_value := m_pi_value self;
     exit_gap_value := exit_gap_value self; g_h_value := Some x;
     energy := energy self; cff := cff self;
     bandwidth := bandwidth self; grating := grating self |}.

(** The four records, by their PV names. *)
Inductive record_name : Type := ENERGY | CFF | BANDWIDTH | GRATING.

Definition set_record (pv : record_name) (d : pvproperty)
    (self : Ioc_rix_sp1k1_calc) : Ioc_rix_sp1k1_calc :=
  {| g_pi_value := g_pi_value self; m_pi_value := m_pi_value self;
     exit_gap_value := exit_gap_value self; g_h_value := g_h_value self;
     energy := match pv with ENERGY => d | _ => energy self end;
     cff := match pv with CFF => d | _ => cff self end;
     bandwidth := match pv with BANDWIDTH => d | _ => bandwidth self end;
     grating := match pv with GRATING => d | _ => grating self end |}.

Definition get_record (pv : record_name) (self : Ioc_rix_sp1k1_calc) : pvproperty :=
  match pv with
  | ENERGY => energy self
  | CFF => cff self
  | BANDWIDTH => bandwidth self
  | GRATING => grating self
  end.

(** ** Coroutines

    What a method does at the boundary is recorded in order. *)
Inductive event : Type :=
| Call_calc_E (g_pi m_pi : float)
| Call_calc_BW (exit_gap g_pi m_pi : float)
| Call_get_grating
| Write (pv : record_name) (v : pyval) (ts : float).

(** A method of the instance: it ends by returning or by raising, leaves the
    instance as mutated up to that point, and a trace.  Nothing a method did
    before an exception is undone. *)
Definition coroutine (A : Type) : Type :=
  Ioc_rix_sp1k1_calc -> outcome A * Ioc_rix_sp1k1_calc * list event.

Definition outcome_of {A} (x : outcome A * Ioc_rix_sp1k1_calc * list event) := fst (fst x).
Definition state_of {A} (x : outcome A * Ioc_rix_sp1k1_calc * list event) := snd (fst x).
Definition trace_of {A} (x : outcome A * Ioc_rix_sp1k1_calc * list event) := snd x.

Definition ret {A} (a : A) : coroutine A :=
  fun self => (Returned a, self, []).

Definition bind {A B} (m : coroutine A) (k : A -> coroutine B) : coroutine B :=
  fun self =>
    match m self with
    | (Returned a, self1, t1) =>
        match k a self1 with
        | (r, self2, t2) => (r, self2, t1 ++ t2)
        end
    | (Raised e, self1, t1) => (Raised e, self1, t1)
    end.

Declare Scope coroutine_scope.
Delimit Scope coroutine_scope with co.
Notation "x <- m ;; k" := (bind m (fun x => k))
  (at level 100, m at next level, right associativity) : coroutine_scope.
Notation "m ;; k" := (bind m (fun _ => k))
  (at level 100, right associativity) : coroutine_scope.
Notation "' p <- m ;; k" := (bind m (fun x => match x with p => k end))
  (at level 100, p pattern, m at next level, right associativity) : coroutine_scope.
Open Scope coroutine_scope.

(** A call into [rix_utilities]: logged, then its result or its exception. *)
Definition extern {A} (ev : event) (r : outcome A) : coroutine A :=
  fun self => (r, self, [ev]).

(** [await pv.write(v, timestamp=ts)]: the record takes the value and the
    timestamp it is given. *)
Definition write (pv : record_name) (v : pyval) (ts : float) : coroutine unit :=
  fun self =>
    (Returned tt, set_record pv {| value := v; timestamp := Some ts |} self,
     [Write pv v ts]).

(** What a subscription delivers: [response.data] and
    [response.metadata.timestamp]. *)
Record response : Type := {
  data : float;
  metadata_timestamp : float
}.

(** ** The class [Ioc_rix_sp1k1_calc] *)

Section Methods.

Variable rix_utilities : RixUtilities.

(** [self.v is None or not np.isclose(self.v, response.data, rtol=0,
    atol=DEADBAND)], the guard of each callback. *)
Definition is_None_or_not_isclose (v : option float) (x : float) : bool :=
  match v with
  | None => true
  | Some v0 => negb (np.isclose v0 x 0 DEADBAND)
  end.

Definition calculate_energy : coroutine (pyval * pyval) :=
  fun self =>
    match g_pi_value self, m_pi_value self with
    | Some g_pi, Some m_pi =>
        extern (Call_calc_E g_pi m_pi) (calc_E rix_utilities g_pi m_pi) self
    | _, _ => ret (PyInt 0, PyInt 0) self
    end.

Definition _update_energy_calc (ts : float) : coroutine unit :=
  '(new_energy, new_cff) <- calculate_energy ;;
  write ENERGY new_energy ts ;;
  write CFF new_cff ts.

Definition calculate_bandwidth : coroutine pyval :=
  fun self =>
    match g_pi_value self, m_pi_value self, exit_gap_value self with
    | Some g_pi, Some m_pi, Some exit_gap =>
        extern (Call_calc_BW exit_gap g_pi m_pi)
               (calc_BW rix_utilities exit_gap g_pi m_pi) self
    | _, _, _ => ret (PyInt 0) self
    end.

Definition _update_bandwidth_calc (ts : float) : coroutine unit :=
  new_bandwidth <- calculate_bandwidth ;;
  write BANDWIDTH new_bandwidth ts.

Definition calculate_grating : coroutine pyval :=
  fun self =>
    match g_h_value self with
    | None => ret (PyStr "") self
    | Some _ => extern Call_get_grating (get_grating rix_utilities tt) self
    end.

Definition _update_grating_calc (ts : float) : coroutine unit :=
  new_grating <- calculate_grating ;;
  write GRATING new_grating ts.

Definition _g_pi_callback (response : response) : coroutine unit :=
  fun self =>
    if is_None_or_not_isclose (g_pi_value self) (data response) then
      (_update_energy_calc (metadata_timestamp response) ;;
       _update_bandwidth_calc (metadata_timestamp response))
        (set_g_pi_value (data response) self)
    else ret tt self.

Definition _m_pi_callback (response : response) : coroutine unit :=
  fun self =>
    if is_None_or_not_isclose (m_pi_value self) (data response) then
      (_update_energy_calc (metadata_timestamp response) ;;
       _update_bandwidth_calc (metadata_timestamp response))
        (set_m_pi_value (data response) self)
    else ret tt self.

Definition _exit_gap_callback (response : response) : coroutine unit :=
  fun self =>
    if is_None_or_not_isclose (exit_gap_value self) (data response) then
      _update_bandwidth_calc (metadata_timestamp response)
        (set_exit_gap_value (data response) self)
    else ret tt self.

Definition _g_h_callback (response : response) : coroutine unit :=
  fun self =>
    if is_None_or_not_isclose (g_h_value self) (data response) then
      _update_grating_calc (metadata_timestamp response)
        (set_g_h_value (data response) self)
    else ret tt self.

(** *** The wiring of [__ainit__] and the dependency map *)

(** The four upstream signals. *)
Inductive slot : Type := G_PI | M_PI | EXIT_GAP | G_H.

(** [__ainit__] subscribes one callback per signal. *)
Definition callback (sl : slot) : response -> coroutine unit :=
  match sl with
  | G_PI => _g_pi_callback
  | M_PI => _m_pi_callback
  | EXIT_GAP => _exit_gap_callback
  | G_H => _g_h_callback
  end.

Definition slot_value (sl : slot) (self : Ioc_rix_sp1k1_calc) : option float :=
  match sl with
  | G_PI => g_pi_value self
  | M_PI => m_pi_value self
  | EXIT_GAP => exit_gap_value self
  | G_H => g_h_value self
  end.

Definition set_slot (sl : slot) (x : float) (self : Ioc_rix_sp1k1_calc) :=
  match sl with
  | G_PI => set_g_pi_value x self
  | M_PI => set_m_pi_value x self
  | EXIT_GAP => set_exit_gap_value x self
  | G_H => set_g_h_value x self
  end.

(** The derived outputs; cff is published by the energy step. *)
Inductive output : Type := Energy | Bandwidth | Grating.

Definition recompute (o : output) (ts : float) : coroutine unit :=
  match o with
  | Energy => _update_energy_calc ts
  | Bandwidth => _update_bandwidth_calc ts
  | Grating => _update_grating_calc ts
  end.

End Methods.

(** The dependency map of the specification: which outputs list a slot as
    a dependency, and which slots an output requires. *)
Definition dependents (sl : slot) : list output :=
  match sl with
  | G_PI | M_PI => [Energy; Bandwidth]
  | EXIT_GAP => [Bandwidth]
  | G_H => [Grating]
  end.

Definition required (o : output) : list slot :=
  match o with
  | Energy => [G_PI; M_PI]
  | Bandwidth => [G_PI; M_PI; EXIT_GAP]
  | Grating => [G_H]
  end.

Definition records (o : output) : list record_name :=
  match o with
  | Energy => [ENERGY; CFF]
  | Bandwidth => [BANDWIDTH]
  | Grating => [GRATING]
  end.

(** The documented defaults: 0 for the numeric records, the empty string
    for the grating identity. *)
Definition default_value (pv : record_name) : pyval :=
  match pv with
  | GRATING => PyStr ""
  | _ => PyInt 0
  end.

Definition unset (self : Ioc_rix_sp1k1_calc) (sl : slot) : bool :=
  match slot_value sl self with
  | None => true
  | Some _ => false
  end.

(** Run the recompute steps of a list of outputs, in order. *)
Fixpoint recompute_all (ru : RixUtilities) (os : list output) (ts : float)
    : coroutine unit :=
  match os with
  | [] => ret tt
  | o :: os' => recompute ru o ts ;; recompute_all ru os' ts
  end.

(** Publish the defaults of a list of records, in order. *)
Fixpoint publish_defaults (pvs : list record_name) (ts : float) : coroutine unit :=
  match pvs with
  | [] => ret tt
  | pv :: pvs' => write pv (default_value pv) ts ;; publish_defaults pvs' ts
  end.

(** ** Reading a trace *)

Definition is_call (ev : event) : bool :=
  match ev with
  | Write _ _ _ => false
  | _ => true
  end.

(** The calls into [rix_utilities] of a trace. *)
Definition external_calls (tr : list event) : list event := filter is_call tr.

(** The timestamps of the writes to one record. *)
Fixpoint writes_to (pv : record_name) (tr : list event) : list float :=
  match tr with
  | [] => []
  | Write pv' _ ts :: tr' =>
      match pv, pv' with
      | ENERGY, ENERGY | CFF, CFF | BANDWIDTH, BANDWIDTH | GRATING, GRATING =>
          ts :: writes_to pv tr'
      | _, _ => writes_to pv tr'
      end
  | _ :: tr' => writes_to pv tr'
  end.

(** The output an event belongs to. *)
Definition concerns (ev : event) : output :=
  match ev with
  | Call_calc_E _ _ | Write ENERGY _ _ | Write CFF _ _ => Energy
  | Call_calc_BW _ _ _ | Write BANDWIDTH _ _ => Bandwidth
  | Call_get_grating | Write GRATING _ _ => Grating
  end.

Definition output_eqb (a b : output) : bool :=
  match a, b with
  | Energy, Energy | Bandwidth, Bandwidth | Grating, Grating => true
  | _, _ => false
  end.

(** The exception a logged call ended with, if it raised. *)
Definition raised_by (ru : RixUtilities) (ev : event) : option exn :=
  match ev with
  | Call_calc_E g_pi m_pi =>
      match calc_E ru g_pi m_pi with Raised e => Some e | Returned _ => None end
  | Call_calc_BW exit_gap g_pi m_pi =>
      match calc_BW ru exit_gap g_pi m_pi with Raised e => Some e | Returned _ => None end
  | Call_get_grating =>
      match get_grating ru tt with Raised e => Some e | Returned _ => None end
  | Write _ _ _ => None
  end.

(** The writes of a trace, applied to an instance. *)
Fixpoint replay (tr : list event) (self : Ioc_rix_sp1k1_calc) : Ioc_rix_sp1k1_calc :=
  match tr with
  | [] => self
  | Write pv v ts :: tr' =>
      replay tr' (set_record pv {| value := v; timestamp := Some ts |} self)
  | _ :: tr' => replay tr' self
  end.

(** ** The deadband, as the specification words it *)

(** [|v - x| > 0.05], computed as Python computes it. *)
Definition exceeds_deadband (v x : float) : bool :=
  (DEADBAND <? abs (v - x))%float.

(** The rule of the specification: accept when the slot is unset or the
    distance exceeds the deadband. *)
Definition accepts_as_stated (v : option float) (x : float) : bool :=
  match v with
  | None => true
  | Some v0 => exceeds_deadband v0 x
  end.

(** The rule with the samples that are not numbers: none of them is close
    to anything. *)
Definition accepts (v : option float) (x : float) : bool :=
  match v with
  | None => true
  | Some v0 => is_nan v0 || is_nan x || exceeds_deadband v0 x
  end.

(** An accepted sample: the slot takes it, then the recompute steps of its
    dependent outputs run with the timestamp of the sample. *)
Definition store (sl : slot) (x : float) : coroutine unit :=
  fun self => (Returned tt, set_slot sl x self, []).

Definition accepted (ru : RixUtilities) (sl : slot) (r : response) : coroutine unit :=
  store sl (data r) ;;
  recompute_all ru (dependents sl) (metadata_timestamp r).

Definition deadband_rule_as_stated (ru : RixUtilities) (sl : slot)
    (r : response) (self : Ioc_rix_sp1k1_calc) : Prop :=
  callback ru sl r self =
    if accepts_as_stated (slot_value sl self) (data r)
    then accepted ru sl r self
    else (Returned tt, self, []).

(** Atomicity as the specification words it: a handler that ends with an
    exception leaves the instance as it found it. *)
Definition atomic_on_raise_as_stated (ru : RixUtilities) (sl : slot)
    (r : response) (self : Ioc_rix_sp1k1_calc) : Prop :=
  forall e, outcome_of (callback ru sl r self) = Raised e ->
            state_of (callback ru sl r self) = self.

(** The scenario of the specification: from a fresh instance, a
    grating-pitch sample of 10.0 at [t1], then a mirror-pitch sample of 5.0
    at [t2]. *)
Definition after_g_pi (ru : RixUtilities) (t1 : float) :=
  _g_pi_callback ru {| data := 10; metadata_timestamp := t1 |} __init__.

Definition after_m_pi (ru : RixUtilities) (t1 t2 : float) :=
  _m_pi_callback ru {| data := 5; metadata_timestamp := t2 |}
    (state_of (after_g_pi ru t1)).

(** As stated: the first sample leaves energy and bandwidth at their
    defaults; the second has both the energy and the bandwidth calculation
    invoked with (10.0, 5.0), and what is published carries [t2]. *)
Definition scenario_as_stated (ru : RixUtilities) (t1 t2 : float) : Prop :=
  external_calls (trace_of (after_g_pi ru t1)) = [] /\
  In (Call_calc_E 10 5) (trace_of (after_m_pi ru t1 t2)) /\
  (exists exit_gap, In (Call_calc_BW exit_gap 10 5) (trace_of (after_m_pi ru t1 t2))) /\
  writes_to ENERGY (trace_of (after_m_pi ru t1 t2)) = [t2] /\
  writes_to BANDWIDTH (trace_of (after_m_pi ru t1 t2)) = [t2].

(** ** Sample collaborators *)

Definition sample_utilities : RixUtilities := {|
  calc_E g_pi m_pi := Returned (PyFloat (g_pi * m_pi), PyFloat (g_pi / m_pi));
  calc_BW exit_gap g_pi m_pi := Returned (PyFloat (exit_gap * (g_pi - m_pi)));
  get_grating _ := Returned (PyStr "LRG")
|}.

(** [calc_E] answers, [calc_BW] raises. *)
Definition failing_utilities : RixUtilities := {|
  calc_E g_pi m_pi := Returned (PyFloat (g_pi * m_pi), PyFloat (g_pi / m_pi));
  calc_BW exit_gap g_pi m_pi := Raised (Exception "ZeroDivisionError");
  get_grating _ := Raised (Exception "RuntimeError")
|}.

(** Sample instances: both pitches received, and all four slots received. *)
Definition both_pitches : Ioc_rix_sp1k1_calc :=
  set_m_pi_value 5 (set_g_pi_value 10 __init__).

Definition all_slots : Ioc_rix_sp1k1_calc :=
  set_g_h_value 1.5 (set_exit_gap_value 1 both_pitches).

(** ** Runs of the IOC *)

Definition slot_eqb (a b : slot) : bool :=
  match a, b with
  | G_PI, G_PI | M_PI, M_PI | EXIT_GAP, EXIT_GAP | G_H, G_H => true
  | _, _ => false
  end.

Definition record_eqb (a b : record_name) : bool :=
  match a, b with
  | ENERGY, ENERGY | CFF, CFF | BANDWIDTH, BANDWIDTH | GRATING, GRATING => true
  | _, _ => false
  end.

(** The records the callback of a slot may write: those of its dependent
    outputs. *)
Definition may_write (sl : slot) (pv : record_name) : bool :=
  existsb (record_eqb pv) (flat_map records (dependents sl)).

(** The records written along a trace, in order. *)
Fixpoint written_records (tr : list event) : list record_name :=
  match tr with
  | [] => []
  | Write pv _ _ :: tr' => pv :: written_records tr'
  | _ :: tr' => written_records tr'
  end.

(** A call is made on the values the slots hold. *)
Definition uses_slots_of (self : Ioc_rix_sp1k1_calc) (ev : event) : Prop :=
  match ev with
  | Call_calc_E g_pi m_pi =>
      g_pi_value self = Some g_pi /\ m_pi_value self = Some m_pi
  | Call_calc_BW exit_gap g_pi m_pi =>
      exit_gap_value self = Some exit_gap /\
      g_pi_value self = Some g_pi /\ m_pi_value self = Some m_pi
  | Call_get_grating => g_h_value self <> None
  | Write _ _ _ => True
  end.

(** A write carries the given timestamp. *)
Definition stamped (ts : float) (ev : event) : Prop :=
  match ev with
  | Write _ _ ts' => ts' = ts
  | _ => True
  end.

(** The instances the IOC can be in: a fresh one, and what a callback
    leaves of one, whether it returned or raised. *)
Inductive reachable (ru : RixUtilities) : Ioc_rix_sp1k1_calc -> Prop :=
| reachable_init : reachable ru __init__
| reachable_callback (self : Ioc_rix_sp1k1_calc) (sl : slot) (r : response) :
    reachable ru self ->
    reachable ru (state_of (callback ru sl r self)).




(** A record holds its default: the 0 or empty string of the recompute
    steps, or the value it was declared with. *)
Definition holds_default (self : Ioc_rix_sp1k1_calc) (pv : record_name) : Prop :=
  value (get_record pv self) = default_value pv \/
  value (get_record pv self) = value (get_record pv __init__).

(** The calculation module answers whatever it is asked. *)
Definition never_raises (ru : RixUtilities) : Prop :=
  (forall g_pi m_pi, exists v, calc_E ru g_pi m_pi = Returned v) /\
  (forall exit_gap g_pi m_pi, exists v, calc_BW ru exit_gap g_pi m_pi = Returned v) /\
  (exists v, get_grating ru tt = Returned v).

(** The records show what the calculation module gives for the values the
    slots hold. *)
Definition in_sync (ru : RixUtilities) (self : Ioc_rix_sp1k1_calc) : Prop :=
  (forall g_pi m_pi,
      g_pi_value self = Some g_pi -> m_pi_value self = Some m_pi ->
      calc_E ru g_pi m_pi = Returned (value (energy self), value (cff self))) /\
  (forall exit_gap g_pi m_pi,
      exit_gap_value self = Some exit_gap ->
      g_pi_value self = Some g_pi -> m_pi_value self = Some m_pi ->
      calc_BW ru exit_gap g_pi m_pi = Returned (value (bandwidth self))) /\
  (g_h_value self <> None ->
      get_grating ru tt = Returned (value (grating self))).

(** An infinity among the specification floats. *)
Definition SFis_infinity (x : spec_float) : bool :=
  match x with S754_infinity _ => true | _ => false end.

(** An output whose required slot is unset holds its defaults. *)
Definition default_held (self : Ioc_rix_sp1k1_calc) : Prop :=
  forall o pv,
    In pv (records o) ->
    existsb (unset self) (required o) = true ->
    holds_default self pv.

(** A calculation module whose [calc_E] raises. *)
Definition no_energy_utilities : RixUtilities := {|
  calc_E g_pi m_pi := Raised (Exception "ValueError");
  calc_BW exit_gap g_pi m_pi := Returned (PyFloat (exit_gap * (g_pi - m_pi)));
  get_grating _ := Returned (PyStr "LRG")
|}.

(** ** Specification floats *)

Module Binary64.

Definition not_nan (x : spec_float) : bool :=
  match x with S754_nan => false | _ => true end.

Definition SFis_finite (x : spec_float) : bool :=
  match x with S754_zero _ | S754_finite _ _ _ => true | _ => false end.

(** The test [np.isclose a b 0 DEADBAND] on specification floats. *)
Definition SFisclose (a b : spec_float) : bool :=
  (SFleb (SFabs (SF64sub a b))
         (SF64add (Prim2SF DEADBAND) (SF64mul (S754_zero false) (SFabs b)))
   && SFis_finite b) || SFeqb a b.

Definition SFexceeds (a b : spec_float) : bool :=
  SFltb (Prim2SF DEADBAND) (SFabs (SF64sub a b)).

End Binary64.

(** * Facts about the deadband test *)

Module Binary64Facts.
Import Binary64.

Lemma compare_cont_Eq_antisym (p q : positive) :
  Pos.compare_cont Eq q p = CompOpp (Pos.compare_cont Eq p q).
Proof. now rewrite (Pos.compare_cont_antisym p q Eq). Qed.

Lemma SFcompare_antisym (x y : spec_float) :
  SFcompare y x = option_map CompOpp (SFcompare x y).
Proof.
  destruct x as [sx|sx| |sx mx ex], y as [sy|sy| |sy my ey];
    try destruct sx; try destruct sy; cbn; try reflexivity.
  - rewrite (Z.compare_antisym ex ey), (compare_cont_Eq_antisym mx my).
    now destruct (ex ?= ey)%Z.
  - rewrite (Z.compare_antisym ex ey), (compare_cont_Eq_antisym mx my).
    now destruct (ex ?= ey)%Z.
Qed.

Lemma SFleb_SFltb (x y : spec_float) :
  not_nan x = true -> not_nan y = true -> SFleb x y = negb (SFltb y x).
Proof.
  intros Hx Hy. unfold SFleb, SFltb. rewrite (SFcompare_antisym x y).
  destruct (SFcompare x y) as [[ | | ]|] eqn:E; cbn; try reflexivity.
  destruct x, y; try discriminate; cbn in E; try discriminate;
    repeat match type of E with context [if ?b then _ else _] => destruct b end;
    discriminate.
Qed.

Lemma SFcompare_refl (x : spec_float) :
  not_nan x = true -> SFcompare x x = Some Eq.
Proof.
  destruct x as [s|s| |s m e]; try discriminate; intros _; cbn;
    destruct s; try reflexivity;
    now rewrite Z.compare_refl, Pos.compare_cont_refl.
Qed.

Lemma SFeqb_finite_inv sx mx ex sy my ey :
  SFeqb (S754_finite sx mx ex) (S754_finite sy my ey) = true ->
  sx = sy /\ mx = my /\ ex = ey.
Proof.
  unfold SFeqb. cbn.
  destruct sx, sy; try discriminate;
    destruct (ex ?= ey)%Z eqn:E; try discriminate;
    apply Z.compare_eq in E; subst ey;
    destruct (Pos.compare_cont Eq mx my) eqn:M; try discriminate;
    apply Pos.compare_eq in M; subst my; auto.
Qed.

(** Right shifts keep a mantissa non-negative. *)
Lemma shr_1_nonneg mrs : (0 <= shr_m mrs)%Z -> (0 <= shr_m (shr_1 mrs))%Z.
Proof.
  destruct mrs as [m r s]. cbn.
  destruct m as [|[p|p|]|[p|p|]]; cbn; lia.
Qed.

Lemma iter_pos_shr_1_nonneg p : forall mrs,
  (0 <= shr_m mrs)%Z -> (0 <= shr_m (iter_pos shr_1 p mrs))%Z.
Proof.
  induction p as [p IH|p IH|]; intros mrs H; cbn.
  - apply IH, IH, shr_1_nonneg, H.
  - apply IH, IH, H.
  - apply shr_1_nonneg, H.
Qed.

Lemma shr_fexp_nonneg m e l :
  (0 <= m)%Z -> (0 <= shr_m (fst (shr_fexp prec emax m e l)))%Z.
Proof.
  intros H. unfold shr_fexp, shr.
  assert (H0 : (0 <= shr_m (shr_record_of_loc m l))%Z)
    by (destruct l as [|[ | | ]]; exact H).
  destruct (fexp prec emax (Zdigits2 m + e) - e)%Z; cbn [fst]; auto.
  now apply iter_pos_shr_1_nonneg.
Qed.

Lemma round_nearest_even_nonneg m l :
  (0 <= m)%Z -> (0 <= round_nearest_even m l)%Z.
Proof.
  intros H. destruct l as [|[ | | ]]; cbn; try lia.
  destruct (Z.even m); lia.
Qed.

Lemma binary_round_aux_not_nan s m e l :
  (0 <= m)%Z -> not_nan (binary_round_aux prec emax s m e l) = true.
Proof.
  intros H. unfold binary_round_aux.
  pose proof (shr_fexp_nonneg m e l H) as H1.
  destruct (shr_fexp prec emax m e l) as [mrs' e']. cbn [fst] in H1.
  pose proof (shr_fexp_nonneg _ e' loc_Exact
                (round_nearest_even_nonneg _ (loc_of_shr_record mrs') H1)) as H2.
  destruct (shr_fexp prec emax (round_nearest_even (shr_m mrs') (loc_of_shr_record mrs')) e' loc_Exact)
    as [mrs'' e'']. cbn [fst] in H2.
  destruct (shr_m mrs''); try lia; try reflexivity.
  now destruct (e'' <=? emax - prec)%Z.
Qed.

Lemma binary_normalize_not_nan m e s :
  not_nan (binary_normalize prec emax m e s) = true.
Proof.
  destruct m; cbn; try reflexivity; unfold binary_round;
    destruct (shl_align _ _ _); apply binary_round_aux_not_nan; lia.
Qed.

Lemma SF64sub_finite_not_nan sx mx ex sy my ey :
  not_nan (SF64sub (S754_finite sx mx ex) (S754_finite sy my ey)) = true.
Proof. apply binary_normalize_not_nan. Qed.

Lemma SF64sub_diag s m e :
  SF64sub (S754_finite s m e) (S754_finite s m e) = S754_zero false.
Proof.
  unfold SF64sub, SFsub. rewrite Z.sub_diag. reflexivity.
Qed.

Lemma SFabs_not_nan x : not_nan (SFabs x) = not_nan x.
Proof. now destruct x. Qed.

Lemma Prim2SF_DEADBAND :
  Prim2SF DEADBAND = S754_finite false 7205759403792794 (-57).
Proof. vm_compute. reflexivity. Qed.

Lemma is_nan_spec x : is_nan x = negb (not_nan (Prim2SF x)).
Proof.
  unfold is_nan. rewrite eqb_spec. unfold SFeqb.
  destruct (not_nan (Prim2SF x)) eqn:E.
  - now rewrite SFcompare_refl.
  - now destruct (Prim2SF x).
Qed.

Lemma is_finite_spec x : is_finite x = SFis_finite (Prim2SF x).
Proof.
  unfold is_finite, is_infinity.
  rewrite is_nan_spec, eqb_spec, abs_spec.
  replace (Prim2SF infinity) with (S754_infinity false) by (vm_compute; reflexivity).
  now destruct (Prim2SF x) as [s|s| |s m e]; try destruct s.
Qed.

Lemma isclose_spec a b :
  np.isclose a b 0 DEADBAND = SFisclose (Prim2SF a) (Prim2SF b).
Proof.
  unfold np.isclose, SFisclose.
  rewrite leb_spec, eqb_spec, is_finite_spec, add_spec, mul_spec, !abs_spec, sub_spec.
  reflexivity.
Qed.

Lemma exceeds_spec a b :
  (DEADBAND <? abs (a - b))%float = SFexceeds (Prim2SF a) (Prim2SF b).
Proof. unfold SFexceeds. now rewrite ltb_spec, abs_spec, sub_spec. Qed.

Lemma SFisclose_finite a b :
  SFis_finite a = true -> SFis_finite b = true ->
  SFisclose a b = negb (SFexceeds a b).
Proof.
  intros Ha Hb. unfold SFisclose, SFexceeds.
  assert (Htol : SF64add (Prim2SF DEADBAND) (SF64mul (S754_zero false) (SFabs b))
                 = Prim2SF DEADBAND).
  { rewrite Prim2SF_DEADBAND. now destruct b as [s|s| |s m e]. }
  rewrite Htol, Hb, andb_true_r.
  assert (Hr : not_nan (SFabs (SF64sub a b)) = true).
  { rewrite SFabs_not_nan.
    destruct a as [sa|sa| |sa ma ea], b as [sb|sb| |sb mb eb]; try discriminate;
      try apply SF64sub_finite_not_nan; try reflexivity.
    now destruct sa, sb. }
  assert (Hd : not_nan (Prim2SF DEADBAND) = true) by now rewrite Prim2SF_DEADBAND.
  rewrite (SFleb_SFltb _ _ Hr Hd).
  destruct (SFltb (Prim2SF DEADBAND) (SFabs (SF64sub a b))) eqn:E; cbn [negb orb];
    [|reflexivity].
  destruct (SFeqb a b) eqn:Q; [exfalso|reflexivity].
  rewrite Prim2SF_DEADBAND in E.
  destruct a as [sa|sa| |sa ma ea], b as [sb|sb| |sb mb eb]; try discriminate.
  - now destruct sa, sb.
  - now destruct sb.
  - now destruct sa.
  - apply SFeqb_finite_inv in Q. destruct Q as (-> & -> & ->).
    rewrite SF64sub_diag in E. discriminate.
Qed.

Lemma SFisclose_not_nan a b :
  not_nan a = true -> not_nan b = true ->
  SFisclose a b = negb (SFexceeds a b).
Proof.
  intros Ha Hb.
  destruct a as [sa|sa| |sa ma ea], b as [sb|sb| |sb mb eb]; try discriminate;
    try (apply SFisclose_finite; reflexivity);
    unfold SFisclose, SFexceeds; rewrite Prim2SF_DEADBAND;
    try destruct sa; try destruct sb; reflexivity.
Qed.

Lemma SFisclose_nan a b :
  not_nan a = false \/ not_nan b = false -> SFisclose a b = false.
Proof.
  unfold SFisclose.
  intros [H|H]; destruct a, b; try discriminate; cbn; try reflexivity;
    now rewrite andb_false_r.
Qed.

Lemma SFexceeds_nan a b :
  not_nan a = false \/ not_nan b = false -> SFexceeds a b = false.
Proof.
  unfold SFexceeds. rewrite Prim2SF_DEADBAND.
  intros [H|H]; destruct a, b; try discriminate; reflexivity.
Qed.

End Binary64Facts.

(** For two numbers (neither is NaN) the test is the comparison of the
    rounded distance with the deadband. *)
Lemma isclose_deadband (a b : float) :
  is_nan a = false -> is_nan b = false ->
  np.isclose a b 0 DEADBAND = negb (DEADBAND <? abs (a - b))%float.
Proof.
  rewrite !Binary64Facts.is_nan_spec, !negb_false_iff. intros Ha Hb.
  rewrite Binary64Facts.isclose_spec, Binary64Facts.exceeds_spec.
  now apply Binary64Facts.SFisclose_not_nan.
Qed.

Lemma isclose_nan (a b : float) :
  is_nan a = true \/ is_nan b = true -> np.isclose a b 0 DEADBAND = false.
Proof.
  rewrite !Binary64Facts.is_nan_spec, !negb_true_iff. intros H.
  rewrite Binary64Facts.isclose_spec. now apply Binary64Facts.SFisclose_nan.
Qed.

Lemma exceeds_nan (a b : float) :
  is_nan a = true \/ is_nan b = true -> (DEADBAND <? abs (a - b))%float = false.
Proof.
  rewrite !Binary64Facts.is_nan_spec, !negb_true_iff. intros H.
  rewrite Binary64Facts.exceeds_spec. now apply Binary64Facts.SFexceeds_nan.
Qed.


(** * The coroutine monad *)

Lemma bind_ret_r (m : coroutine unit) self : (m ;; ret tt) self = m self.
Proof.
  unfold bind, ret. destruct (m self) as [[[[]|e] s1] t1]; [|reflexivity].
  now rewrite app_nil_r.
Qed.

Lemma bind_ext {A B} (m : coroutine A) (k k' : A -> coroutine B) self :
  (forall a s, k a s = k' a s) -> bind m k self = bind m k' self.
Proof.
  intros H. unfold bind. destruct (m self) as [[[a|e] s1] t1]; [|reflexivity].
  now rewrite H.
Qed.

Lemma store_bind {B} sl x (k : coroutine B) self :
  (store sl x ;; k) self = k (set_slot sl x self).
Proof.
  unfold bind, store. now destruct (k (set_slot sl x self)) as [[r s1] t1].
Qed.

(** * The callbacks *)

Lemma guard_accepts v x : is_None_or_not_isclose v x = accepts v x.
Proof.
  destruct v as [v0|]; [|reflexivity]. cbn. unfold exceeds_deadband.
  destruct (is_nan v0) eqn:Hv.
  - now rewrite isclose_nan by auto.
  - destruct (is_nan x) eqn:Hx.
    + now rewrite isclose_nan by auto.
    + rewrite isclose_deadband by assumption. now rewrite negb_involutive.
Qed.

Lemma callback_unfold ru sl r self :
  callback ru sl r self =
    if is_None_or_not_isclose (slot_value sl self) (data r)
    then accepted ru sl r self
    else (Returned tt, self, []).
Proof.
  unfold accepted. rewrite store_bind.
  destruct sl; cbn [callback slot_value dependents recompute_all recompute set_slot];
    [unfold _g_pi_callback|unfold _m_pi_callback
    |unfold _exit_gap_callback|unfold _g_h_callback];
    match goal with |- context [if ?b then _ else _] => destruct b end;
    try reflexivity.
  - apply bind_ext. intros. now rewrite bind_ret_r.
  - apply bind_ext. intros. now rewrite bind_ret_r.
  - now rewrite bind_ret_r.
  - now rewrite bind_ret_r.
Qed.

(** C1 (amended): each of the four callbacks stores the sample and runs the
    recompute steps of exactly its dependent outputs when the slot is
    unset, when the stored value or the sample is not a number, or when
    the distance computed in binary64 exceeds the deadband of 0.05
    (absolute, not relative); in every other case it changes nothing,
    recomputes nothing and publishes nothing. *)
Theorem deadband_rule (ru : RixUtilities) (sl : slot) (r : response)
    (self : Ioc_rix_sp1k1_calc) :
  callback ru sl r self =
    if accepts (slot_value sl self) (data r)
    then accepted ru sl r self
    else (Returned tt, self, []).
Proof. rewrite callback_unfold. now rewrite guard_accepts. Qed.

(** C1, as stated, fails when the sample is not a number: with 10.0 stored,
    a NaN sample does not exceed the deadband, and yet the grating-pitch
    callback stores it and republishes. *)
Lemma deadband_rule_nan_counterexample :
  ~ deadband_rule_as_stated sample_utilities G_PI
      {| data := nan; metadata_timestamp := 2 |}
      (set_g_pi_value 10 __init__).
Proof.
  unfold deadband_rule_as_stated. intros H.
  apply (f_equal (fun x => List.length (trace_of x))) in H.
  vm_compute in H. discriminate H.
Qed.

(** * The recompute steps *)

Ltac run_step :=
  unfold recompute, _update_energy_calc, _update_bandwidth_calc,
    _update_grating_calc, calculate_energy, calculate_bandwidth,
    calculate_grating, bind, extern, write, ret;
  cbn.

(** C2: a recompute step that runs while one of its required slots is
    unset publishes the defaults (0 for energy, cff and bandwidth, the
    empty string for the grating) and makes no call into the calculation
    module; a step that does call it has all its required slots set. *)
Theorem default_before_ready (ru : RixUtilities) (o : output) (ts : float)
    (self : Ioc_rix_sp1k1_calc) :
  (existsb (unset self) (required o) = true ->
     recompute ru o ts self = publish_defaults (records o) ts self /\
     external_calls (trace_of (recompute ru o ts self)) = []) /\
  (external_calls (trace_of (recompute ru o ts self)) <> [] ->
     forallb (fun sl => negb (unset self sl)) (required o) = true).
Proof.
  destruct self as [g m x h e c b gr].
  destruct o; unfold unset.
  - destruct g, m; run_step; split; try discriminate; try tauto; auto;
      destruct (calc_E ru _ _) as [[]|]; cbn; auto.
  - destruct g, m, x; run_step; split; try discriminate; try tauto; auto;
      destruct (calc_BW ru _ _ _); cbn; auto.
  - destruct h; run_step; split; try discriminate; try tauto; auto;
      destruct (get_grating ru tt); cbn; auto.
Qed.

Ltac run_callback :=
  unfold callback, _g_pi_callback, _m_pi_callback, _exit_gap_callback,
    _g_h_callback;
  cbn [g_pi_value m_pi_value exit_gap_value g_h_value];
  match goal with
  | |- context [is_None_or_not_isclose ?v ?x] =>
      destruct (is_None_or_not_isclose v x)
  end.

(** C3: a sample of the exit gap leaves the energy, cff and grating records
    as they were and can only run the bandwidth step; a sample of the
    grating horizontal position leaves the energy, cff and bandwidth
    records as they were and can only run the grating step. *)
Theorem cross_dependency_isolation (ru : RixUtilities) (r : response)
    (self : Ioc_rix_sp1k1_calc) :
  (energy (state_of (_exit_gap_callback ru r self)) = energy self /\
   cff (state_of (_exit_gap_callback ru r self)) = cff self /\
   grating (state_of (_exit_gap_callback ru r self)) = grating self /\
   forallb (fun ev => output_eqb (concerns ev) Bandwidth)
     (trace_of (_exit_gap_callback ru r self)) = true) /\
  (energy (state_of (_g_h_callback ru r self)) = energy self /\
   cff (state_of (_g_h_callback ru r self)) = cff self /\
   bandwidth (state_of (_g_h_callback ru r self)) = bandwidth self /\
   forallb (fun ev => output_eqb (concerns ev) Grating)
     (trace_of (_g_h_callback ru r self)) = true).
Proof.
  destruct self as [g m x h e c b gr]. split.
  - run_callback; [|now cbn].
    destruct g, m; run_step; auto;
      destruct (calc_BW ru _ _ _); cbn; auto.
  - run_callback; [|now cbn].
    run_step. destruct (get_grating ru tt); cbn; auto.
Qed.

(** C5: with both pitches set, the energy step makes exactly one call into
    the calculation module, [calc_E] with (grating pitch, mirror pitch),
    and publishes the pair it returns, energy then cff, with the timestamp
    it was given. *)
Theorem energy_step_calls_calc_E (ru : RixUtilities) (ts : float)
    (self : Ioc_rix_sp1k1_calc) (g_pi m_pi : float) :
  g_pi_value self = Some g_pi ->
  m_pi_value self = Some m_pi ->
  external_calls (trace_of (_update_energy_calc ru ts self)) = [Call_calc_E g_pi m_pi] /\
  forall new_energy new_cff,
    calc_E ru g_pi m_pi = Returned (new_energy, new_cff) ->
    _update_energy_calc ru ts self =
      (Returned tt,
       set_record CFF {| value := new_cff; timestamp := Some ts |}
         (set_record ENERGY {| value := new_energy; timestamp := Some ts |} self),
       [Call_calc_E g_pi m_pi; Write ENERGY new_energy ts; Write CFF new_cff ts]).
Proof.
  destruct self as [g m x h e c b gr]. cbn. intros -> ->. run_step.
  destruct (calc_E ru g_pi m_pi) as [[v1 v2]|err]; cbn; split; auto;
    intros ne nc Heq; inversion Heq; reflexivity.
Qed.

(** C6: with the exit gap and both pitches set, the bandwidth step calls
    [calc_BW] with (exit gap, grating pitch, mirror pitch), in this order,
    and publishes what it returns with the timestamp it was given. *)
Theorem bandwidth_step_calls_calc_BW (ru : RixUtilities) (ts : float)
    (self : Ioc_rix_sp1k1_calc) (exit_gap g_pi m_pi : float) :
  exit_gap_value self = Some exit_gap ->
  g_pi_value self = Some g_pi ->
  m_pi_value self = Some m_pi ->
  external_calls (trace_of (_update_bandwidth_calc ru ts self))
    = [Call_calc_BW exit_gap g_pi m_pi] /\
  forall new_bandwidth,
    calc_BW ru exit_gap g_pi m_pi = Returned new_bandwidth ->
    _update_bandwidth_calc ru ts self =
      (Returned tt,
       set_record BANDWIDTH {| value := new_bandwidth; timestamp := Some ts |} self,
       [Call_calc_BW exit_gap g_pi m_pi; Write BANDWIDTH new_bandwidth ts]).
Proof.
  destruct self as [g m x h e c b gr]. cbn. intros -> -> ->. run_step.
  destruct (calc_BW ru exit_gap g_pi m_pi) as [v|err]; cbn; split; auto;
    intros nb Heq; inversion Heq; reflexivity.
Qed.

(** C9: the grating step never hands the stored grating horizontal position
    to the calculation module: two instances whose slots hold any two
    values make the same zero-argument call, end the same way and publish
    the same identity. *)
Theorem grating_ignores_sample_value (ru : RixUtilities) (ts : float)
    (s1 s2 : Ioc_rix_sp1k1_calc) (a b : float) :
  g_h_value s1 = Some a ->
  g_h_value s2 = Some b ->
  external_calls (trace_of (_update_grating_calc ru ts s1)) = [Call_get_grating] /\
  trace_of (_update_grating_calc ru ts s1) = trace_of (_update_grating_calc ru ts s2) /\
  outcome_of (_update_grating_calc ru ts s1) = outcome_of (_update_grating_calc ru ts s2) /\
  forall new_grating,
    get_grating ru tt = Returned new_grating ->
    grating (state_of (_update_grating_calc ru ts s1))
      = {| value := new_grating; timestamp := Some ts |} /\
    grating (state_of (_update_grating_calc ru ts s2))
      = {| value := new_grating; timestamp := Some ts |}.
Proof.
  destruct s1 as [g1 m1 x1 h1 e1 c1 b1 gr1], s2 as [g2 m2 x2 h2 e2 c2 b2 gr2].
  cbn. intros -> ->. run_step.
  destruct (get_grating ru tt) as [v|err]; cbn; repeat split; auto;
    inversion H; reflexivity.
Qed.

(** C10: in every invocation of a callback the energy record is written
    exactly when the cff record is, the same number of times and with the
    same timestamps. *)
Theorem energy_cff_written_together (ru : RixUtilities) (sl : slot)
    (r : response) (self : Ioc_rix_sp1k1_calc) :
  writes_to ENERGY (trace_of (callback ru sl r self))
    = writes_to CFF (trace_of (callback ru sl r self)).
Proof.
  destruct self as [g m x h e c b gr].
  destruct sl; run_callback; try reflexivity.
  - destruct m; run_step; try (destruct x); cbn;
      repeat match goal with
        | |- context [calc_E ru ?a ?b] => destruct (calc_E ru a b) as [[]|]; cbn
        | |- context [calc_BW ru ?a ?b ?c] => destruct (calc_BW ru a b c); cbn
        end; reflexivity.
  - destruct g; run_step; try (destruct x); cbn;
      repeat match goal with
        | |- context [calc_E ru ?a ?b] => destruct (calc_E ru a b) as [[]|]; cbn
        | |- context [calc_BW ru ?a ?b ?c] => destruct (calc_BW ru a b c); cbn
        end; reflexivity.
  - destruct g, m; run_step;
      repeat match goal with
        | |- context [calc_BW ru ?a ?b ?c] => destruct (calc_BW ru a b c); cbn
        end; reflexivity.
  - run_step. destruct (get_grating ru tt); reflexivity.
Qed.

(** * Scenarios *)

(** C4 (amended): from a fresh instance, a grating-pitch sample of 10.0
    publishes the defaults without any calculation; the mirror-pitch
    sample of 5.0 that follows has [calc_E] invoked with (10.0, 5.0) and
    energy and cff published with the timestamp of that sample, while the
    bandwidth step, the exit gap being still unset, publishes the default 0
    with that timestamp and does not invoke [calc_BW]. *)
Theorem scenario_pitch_then_mirror (ru : RixUtilities) (t1 t2 : float)
    (new_energy new_cff : pyval) :
  calc_E ru 10 5 = Returned (new_energy, new_cff) ->
  trace_of (after_g_pi ru t1) =
    [Write ENERGY (PyInt 0) t1; Write CFF (PyInt 0) t1; Write BANDWIDTH (PyInt 0) t1] /\
  trace_of (after_m_pi ru t1 t2) =
    [Call_calc_E 10 5; Write ENERGY new_energy t2; Write CFF new_cff t2;
     Write BANDWIDTH (PyInt 0) t2] /\
  outcome_of (after_m_pi ru t1 t2) = Returned tt /\
  energy (state_of (after_m_pi ru t1 t2)) = {| value := new_energy; timestamp := Some t2 |} /\
  cff (state_of (after_m_pi ru t1 t2)) = {| value := new_cff; timestamp := Some t2 |} /\
  bandwidth (state_of (after_m_pi ru t1 t2)) = {| value := PyInt 0; timestamp := Some t2 |}.
Proof.
  intros HE. unfold after_m_pi, after_g_pi.
  unfold _g_pi_callback, _m_pi_callback. cbn [g_pi_value m_pi_value __init__ data
    metadata_timestamp is_None_or_not_isclose].
  run_step. rewrite HE. cbn. repeat split.
Qed.

(** C4, as stated, fails on the bandwidth: after the two samples no call to
    [calc_BW] has been made at all. *)
Lemma scenario_bandwidth_counterexample :
  ~ scenario_as_stated sample_utilities 1 2.
Proof.
  unfold scenario_as_stated. intros (_ & _ & [exit_gap H] & _).
  vm_compute in H. decompose [or] H; try discriminate; contradiction.
Qed.

(** * Exceptions of the calculation module *)

Ltac split_calls ru :=
  repeat match goal with
    | |- context [calc_E ru ?a ?b] =>
        let E := fresh "E" in destruct (calc_E ru a b) as [[? ?]|?] eqn:E; cbn
    | |- context [calc_BW ru ?a ?b ?c] =>
        let E := fresh "E" in destruct (calc_BW ru a b c) as [?|?] eqn:E; cbn
    | |- context [get_grating ru tt] =>
        let E := fresh "E" in destruct (get_grating ru tt) as [?|?] eqn:E; cbn
    end.

Ltac last_event :=
  first [ now exists [] | now eexists [_] | now eexists [_; _]
        | now eexists [_; _; _] ].

Ltac raise_case ru :=
  split;
  [ intros ev_ exn_ Hin Hr; cbn in Hin;
    repeat match type of Hin with
      | _ \/ _ => destruct Hin as [<-|Hin]
      | False => destruct Hin
      end;
    cbn in Hr;
    repeat match goal with
      | E : calc_E _ _ _ = _ |- _ => rewrite E in Hr
      | E : calc_BW _ _ _ _ = _ |- _ => rewrite E in Hr
      | E : get_grating _ _ = _ |- _ => rewrite E in Hr
      end;
    cbn in Hr;
    first [ discriminate Hr
          | injection Hr as <-; split; [reflexivity|last_event] ]
  | intros exn_ He; cbn in He;
    first
      [ discriminate He
      | injection He as <-;
        split; [reflexivity|split; [reflexivity|]];
        first [ eexists [], _; split; [reflexivity|]
              | eexists [_], _; split; [reflexivity|]
              | eexists [_; _], _; split; [reflexivity|]
              | eexists [_; _; _], _; split; [reflexivity|] ];
        cbn;
        match goal with
        | E : calc_E _ _ _ = _ |- _ => now rewrite E
        | E : calc_BW _ _ _ _ = _ |- _ => now rewrite E
        | E : get_grating _ _ = _ |- _ => now rewrite E
        end ] ].

(** C7 (amended): an exception of the calculation module ends the callback
    that made the call, with that exception and with nothing run after the
    call; nothing is rolled back: the slot keeps the sample and the
    records keep what was written before the call. *)
Theorem raise_terminates_handler (ru : RixUtilities) (sl : slot)
    (r : response) (self : Ioc_rix_sp1k1_calc) :
  (forall c e,
      In c (trace_of (callback ru sl r self)) ->
      raised_by ru c = Some e ->
      outcome_of (callback ru sl r self) = Raised e /\
      exists tr0, trace_of (callback ru sl r self) = tr0 ++ [c]) /\
  (forall e,
      outcome_of (callback ru sl r self) = Raised e ->
      slot_value sl (state_of (callback ru sl r self)) = Some (data r) /\
      state_of (callback ru sl r self)
        = replay (trace_of (callback ru sl r self)) (set_slot sl (data r) self) /\
      exists tr0 c,
        trace_of (callback ru sl r self) = tr0 ++ [c] /\ raised_by ru c = Some e).
Proof.
  destruct self as [g m x h e c b gr], r as [d ts].
  destruct sl; run_callback;
    try (cbn; split; [intros ? ? []|discriminate]).
  - destruct m; [destruct x|]; run_step; split_calls ru; raise_case ru.
  - destruct g; [destruct x|]; run_step; split_calls ru; raise_case ru.
  - destruct g; [destruct m|]; run_step; split_calls ru; raise_case ru.
  - run_step; split_calls ru; raise_case ru.
Qed.

(** C7, as stated, fails: with [calc_E] answering and [calc_BW] raising, a
    grating-pitch sample ends with the exception after the slot has taken
    the sample and energy and cff have been published. *)
Lemma atomicity_counterexample :
  ~ atomic_on_raise_as_stated failing_utilities G_PI
      {| data := 10; metadata_timestamp := 2 |}
      (set_exit_gap_value 1 (set_m_pi_value 5 __init__)).
Proof.
  intros H. specialize (H (Exception "ZeroDivisionError") eq_refl).
  apply (f_equal g_pi_value) in H. vm_compute in H. discriminate H.
Qed.

(** * The stand-in for [rix.db] *)

(** C8 (amended): an attribute access on the stub never raises, and it
    yields [None] for every name the normal lookup does not find: every
    name other than [__doc__], [__getattr__], [__module__] and [__dict__],
    which the class statement gives a value other than [None], and than
    what the running interpreter supplies to every object or class. *)
Theorem stub_attribute_access (module_name : string)
    (builtin_namespace : string -> option NoneRixDB.pyobject) (name : string) :
  (exists v, NoneRixDB.getattr module_name builtin_namespace name = Returned v) /\
  (name <> "__doc__"%string -> name <> "__getattr__"%string ->
   name <> "__module__"%string -> name <> "__dict__"%string ->
   builtin_namespace name = None ->
   NoneRixDB.getattr module_name builtin_namespace name
     = Returned NoneRixDB.PyNone) /\
  (name = "__doc__"%string \/ name = "__getattr__"%string \/
   name = "__module__"%string \/ name = "__dict__"%string ->
   NoneRixDB.getattr module_name builtin_namespace name
     <> Returned NoneRixDB.PyNone).
Proof.
  unfold NoneRixDB.getattr, NoneRixDB.__getattribute__, NoneRixDB.class_namespace.
  split; [|split].
  - repeat match goal with
      | |- context [if ?b then _ else _] => destruct b; [eauto|]
      end.
    destruct (builtin_namespace name); eauto.
  - intros H1 H2 H3 H4 H5.
    apply String.eqb_neq in H1, H2, H3, H4. rewrite H1, H2, H3, H4.
    destruct (String.eqb name "__weakref__"); [reflexivity|].
    now rewrite H5.
  - intros [-> | [-> | [-> | ->]]]; cbn; discriminate.
Qed.

(** C8, as stated, fails at [__doc__]: the access yields the docstring of
    the class. *)
Lemma stub_doc_counterexample :
  ~ NoneRixDB.attribute_is_None_as_stated "ioc_rix_sp1k1_calc" (fun _ => None)
      "__doc__".
Proof. unfold NoneRixDB.attribute_is_None_as_stated. cbn. discriminate. Qed.

(** * The theorems at concrete inputs *)

(** The scenarios of the specification on the grating pitch: 10.03 after
    10.0 is ignored, 10.10 after 10.0 is taken. *)
Example sample_within_deadband :
  _g_pi_callback sample_utilities {| data := 10.03; metadata_timestamp := 7 |} both_pitches
  = (Returned tt, both_pitches, []).
Proof. reflexivity. Qed.

Example sample_outside_deadband :
  g_pi_value (state_of (_g_pi_callback sample_utilities
                          {| data := 10.10; metadata_timestamp := 7 |} both_pitches))
    = Some 10.10%float /\
  writes_to ENERGY (trace_of (_g_pi_callback sample_utilities
                                {| data := 10.10; metadata_timestamp := 7 |} both_pitches))
    = [7%float].
Proof. split; reflexivity. Qed.

(** The distance is the rounded one: the double written 10.05 lies
    0.05000000000000071 away from 10.0 and is taken. *)
Example sample_at_the_edge :
  exceeds_deadband 10 10.05 = true /\ exceeds_deadband 10 10.03 = false.
Proof. split; reflexivity. Qed.

Lemma default_before_ready_witness :
  (existsb (unset both_pitches) (required Bandwidth) = true /\
   recompute sample_utilities Bandwidth 3 both_pitches
     = publish_defaults (records Bandwidth) 3 both_pitches) /\
  (external_calls (trace_of (recompute sample_utilities Energy 3 both_pitches)) <> [] /\
   forallb (fun sl => negb (unset both_pitches sl)) (required Energy) = true).
Proof.
  split.
  - split; [reflexivity|].
    apply (proj1 (default_before_ready sample_utilities Bandwidth 3 both_pitches)).
    reflexivity.
  - assert (H : external_calls
                  (trace_of (recompute sample_utilities Energy 3 both_pitches)) <> [])
      by (vm_compute; discriminate).
    split; [exact H|].
    exact (proj2 (default_before_ready sample_utilities Energy 3 both_pitches) H).
Defined.

Lemma scenario_pitch_then_mirror_witness :
  calc_E sample_utilities 10 5 = Returned (PyFloat 50, PyFloat 2) /\
  trace_of (after_m_pi sample_utilities 1 2) =
    [Call_calc_E 10 5; Write ENERGY (PyFloat 50) 2; Write CFF (PyFloat 2) 2;
     Write BANDWIDTH (PyInt 0) 2].
Proof.
  split; [reflexivity|].
  apply (scenario_pitch_then_mirror sample_utilities 1 2 (PyFloat 50) (PyFloat 2)).
  reflexivity.
Defined.

Lemma energy_step_calls_calc_E_witness :
  g_pi_value both_pitches = Some 10%float /\
  m_pi_value both_pitches = Some 5%float /\
  external_calls (trace_of (_update_energy_calc sample_utilities 3 both_pitches))
    = [Call_calc_E 10 5].
Proof.
  split; [reflexivity|]. split; [reflexivity|].
  apply (energy_step_calls_calc_E sample_utilities 3 both_pitches 10 5); reflexivity.
Defined.

Lemma bandwidth_step_calls_calc_BW_witness :
  exit_gap_value all_slots = Some 1%float /\
  g_pi_value all_slots = Some 10%float /\
  m_pi_value all_slots = Some 5%float /\
  external_calls (trace_of (_update_bandwidth_calc sample_utilities 3 all_slots))
    = [Call_calc_BW 1 10 5].
Proof.
  split; [reflexivity|]. split; [reflexivity|]. split; [reflexivity|].
  apply (bandwidth_step_calls_calc_BW sample_utilities 3 all_slots 1 10 5); reflexivity.
Defined.

Lemma raise_terminates_handler_witness :
  outcome_of (callback failing_utilities EXIT_GAP
                {| data := 1; metadata_timestamp := 4 |} both_pitches)
    = Raised (Exception "ZeroDivisionError") /\
  slot_value EXIT_GAP
    (state_of (callback failing_utilities EXIT_GAP
                 {| data := 1; metadata_timestamp := 4 |} both_pitches))
    = Some 1%float.
Proof.
  split; [reflexivity|].
  apply (proj2 (raise_terminates_handler failing_utilities EXIT_GAP
                  {| data := 1; metadata_timestamp := 4 |} both_pitches)
               (Exception "ZeroDivisionError")).
  reflexivity.
Defined.

(** The stub at the names the class statement creates and at two it does
    not. *)
Example stub_class_attributes :
  NoneRixDB.getattr "ioc_rix_sp1k1_calc" NoneRixDB.sample_builtins "__module__"
    = Returned (NoneRixDB.PyString "ioc_rix_sp1k1_calc") /\
  NoneRixDB.getattr "ioc_rix_sp1k1_calc" NoneRixDB.sample_builtins "__dict__"
    = Returned (NoneRixDB.PyObject "{}") /\
  NoneRixDB.getattr "ioc_rix_sp1k1_calc" NoneRixDB.sample_builtins "__weakref__"
    = Returned NoneRixDB.PyNone /\
  NoneRixDB.getattr "ioc_rix_sp1k1_calc" NoneRixDB.sample_builtins "__qualname__"
    = Returned NoneRixDB.PyNone /\
  NoneRixDB.getattr "ioc_rix_sp1k1_calc" NoneRixDB.sample_builtins "sp1k1"
    = Returned NoneRixDB.PyNone.
Proof. repeat split. Qed.

Lemma stub_attribute_access_witness :
  NoneRixDB.sample_builtins "daq" = None /\
  NoneRixDB.getattr "ioc_rix_sp1k1_calc" NoneRixDB.sample_builtins "daq"
    = Returned NoneRixDB.PyNone.
Proof.
  split; [reflexivity|].
  apply (proj1 (proj2 (stub_attribute_access "ioc_rix_sp1k1_calc"
                         NoneRixDB.sample_builtins "daq")));
    [discriminate|discriminate|discriminate|discriminate|reflexivity].
Defined.

Lemma grating_ignores_sample_value_witness :
  g_h_value all_slots = Some 1.5%float /\
  g_h_value (set_g_h_value (-20) __init__) = Some (-20)%float /\
  trace_of (_update_grating_calc sample_utilities 3 all_slots)
    = trace_of (_update_grating_calc sample_utilities 3 (set_g_h_value (-20) __init__)).
Proof.
  split; [reflexivity|]. split; [reflexivity|].
  apply (grating_ignores_sample_value sample_utilities 3 all_slots
           (set_g_h_value (-20) __init__) 1.5 (-20)); reflexivity.
Defined.

(** * Beyond the claims: what every callback keeps *)

Ltac open_callback :=
  unfold callback, _g_pi_callback, _m_pi_callback, _exit_gap_callback,
    _g_h_callback;
  cbn [slot_value g_pi_value m_pi_value exit_gap_value g_h_value data
       metadata_timestamp];
  match goal with
  | |- context [is_None_or_not_isclose ?v ?x] =>
      destruct (is_None_or_not_isclose v x)
  end.

Ltac split_slots g m x h :=
  try destruct g; try destruct m; try destruct x; try destruct h.

(** The slots after a callback, returned or raised: the slot of the
    callback where the sample was taken, the others as they were. *)
Lemma slot_after_callback ru sl r self sl' :
  slot_value sl' (state_of (callback ru sl r self)) =
    if slot_eqb sl' sl && accepts (slot_value sl self) (data r)
    then Some (data r)
    else slot_value sl' self.
Proof.
  rewrite <- guard_accepts.
  destruct self as [g m x h e c b gr], r as [d ts].
  destruct sl; open_callback; rewrite ?andb_false_r, ?andb_true_r;
    try (destruct sl'; reflexivity);
    run_step; split_slots g m x h;
    cbn; split_calls ru; destruct sl'; reflexivity.
Qed.

(** X1: a callback, returned or raised, writes no slot but its own: its
    slot holds the sample when the sample was taken and is as before
    otherwise, every other slot is as before, and no slot that was set
    becomes unset. *)
Theorem callback_writes_its_slot_only (ru : RixUtilities) (sl : slot)
    (r : response) (self : Ioc_rix_sp1k1_calc) :
  slot_value sl (state_of (callback ru sl r self)) =
    (if accepts (slot_value sl self) (data r)
     then Some (data r) else slot_value sl self) /\
  (forall sl', slot_eqb sl' sl = false ->
     slot_value sl' (state_of (callback ru sl r self)) = slot_value sl' self) /\
  (forall sl', slot_value sl' self <> None ->
     slot_value sl' (state_of (callback ru sl r self)) <> None).
Proof.
  split; [|split].
  - rewrite slot_after_callback. now destruct sl.
  - intros sl' H. rewrite slot_after_callback. now rewrite H.
  - intros sl' H. rewrite slot_after_callback.
    destruct (slot_eqb sl' sl && accepts (slot_value sl self) (data r));
      [discriminate|exact H].
Qed.

(** X2: a callback, returned or raised, leaves every record outside the
    dependent outputs of its slot as it was; the pitch callbacks never
    touch the grating record. *)
Theorem callback_records_frame (ru : RixUtilities) (sl : slot)
    (r : response) (self : Ioc_rix_sp1k1_calc) (pv : record_name) :
  may_write sl pv = false ->
  get_record pv (state_of (callback ru sl r self)) = get_record pv self.
Proof.
  destruct self as [g m x h e c b gr], r as [d ts].
  destruct sl; open_callback; try reflexivity;
    run_step; split_slots g m x h; cbn; split_calls ru;
    destruct pv; cbn; try reflexivity; discriminate.
Qed.

(** X3: whatever a callback writes carries the timestamp of the sample:
    every write of its trace does, and every record is afterwards either
    as it was or stamped with it. *)
Theorem callback_writes_stamped (ru : RixUtilities) (sl : slot)
    (r : response) (self : Ioc_rix_sp1k1_calc) :
  Forall (stamped (metadata_timestamp r)) (trace_of (callback ru sl r self)) /\
  forall pv,
    get_record pv (state_of (callback ru sl r self)) = get_record pv self \/
    timestamp (get_record pv (state_of (callback ru sl r self)))
      = Some (metadata_timestamp r).
Proof.
  destruct self as [g m x h e c b gr], r as [d ts].
  destruct sl; open_callback;
    try (split; [constructor|intros pv; now left]);
    run_step; split_slots g m x h; cbn; split_calls ru;
    (split; [repeat constructor|intros pv; destruct pv; cbn; auto]).
Qed.

(** X4: a callback that returns has written the records of the dependent
    outputs of its slot, each once and in the order energy, cff,
    bandwidth, when it took the sample, and none when it ignored it. *)
Theorem callback_written_records (ru : RixUtilities) (sl : slot)
    (r : response) (self : Ioc_rix_sp1k1_calc) :
  outcome_of (callback ru sl r self) = Returned tt ->
  written_records (trace_of (callback ru sl r self)) =
    if accepts (slot_value sl self) (data r)
    then flat_map records (dependents sl)
    else [].
Proof.
  rewrite <- guard_accepts.
  destruct self as [g m x h e c b gr], r as [d ts].
  destruct sl; open_callback; try reflexivity;
    run_step; split_slots g m x h; cbn; split_calls ru;
    intros H; try discriminate H; reflexivity.
Qed.

(** X5: a calculation is always made on the values the slots hold once the
    sample is stored: the new sample and the latest of the other slots. *)
Theorem callback_calls_use_current_slots (ru : RixUtilities) (sl : slot)
    (r : response) (self : Ioc_rix_sp1k1_calc) :
  Forall (uses_slots_of (state_of (callback ru sl r self)))
         (trace_of (callback ru sl r self)).
Proof.
  destruct self as [g m x h e c b gr], r as [d ts].
  destruct sl; open_callback; try constructor;
    run_step; split_slots g m x h; cbn; split_calls ru;
    repeat constructor; cbn; auto; discriminate.
Qed.

(** * Beyond the claims: the deadband at its edges *)

Lemma exceeds_deadband_diag (x : float) : exceeds_deadband x x = false.
Proof.
  unfold exceeds_deadband. rewrite Binary64Facts.exceeds_spec.
  unfold Binary64.SFexceeds. rewrite Binary64Facts.Prim2SF_DEADBAND.
  destruct (Prim2SF x) as [s|s| |s m e].
  - now destruct s.
  - now destruct s.
  - reflexivity.
  - now rewrite Binary64Facts.SF64sub_diag.
Qed.

Lemma is_infinity_spec (x : float) : is_infinity x = SFis_infinity (Prim2SF x).
Proof.
  unfold is_infinity. rewrite eqb_spec, abs_spec.
  replace (Prim2SF infinity) with (S754_infinity false) by (vm_compute; reflexivity).
  now destruct (Prim2SF x) as [s|s| |s m e]; try destruct s.
Qed.

Lemma exceeds_deadband_infinite (a b : float) :
  (is_finite a = true /\ is_infinity b = true) \/
  (is_infinity a = true /\ is_finite b = true) ->
  exceeds_deadband a b = true.
Proof.
  rewrite !Binary64Facts.is_finite_spec, !is_infinity_spec.
  unfold exceeds_deadband. rewrite Binary64Facts.exceeds_spec.
  unfold Binary64.SFexceeds. rewrite Binary64Facts.Prim2SF_DEADBAND.
  intros [[Ha Hb]|[Ha Hb]];
    destruct (Prim2SF a) as [sa|sa| |sa ma ea], (Prim2SF b) as [sb|sb| |sb mb eb];
    try discriminate; try destruct sa; try destruct sb; reflexivity.
Qed.

(** X6: a sample that is a number is ignored when it is delivered again
    right after, whatever the timestamp of the second delivery and whether
    the first delivery returned or raised: nothing is stored, recomputed or
    published. *)
Theorem repeated_sample_ignored (ru : RixUtilities) (sl : slot)
    (r r' : response) (self : Ioc_rix_sp1k1_calc) :
  is_nan (data r) = false ->
  data r' = data r ->
  callback ru sl r' (state_of (callback ru sl r self))
    = (Returned tt, state_of (callback ru sl r self), []).
Proof.
  intros Hnan Hd. rewrite (callback_unfold ru sl r'), guard_accepts.
  rewrite slot_after_callback, Hd.
  replace (slot_eqb sl sl) with true by now destruct sl.
  cbn [andb].
  destruct (accepts (slot_value sl self) (data r)) eqn:A.
  - assert (R : accepts (Some (data r)) (data r) = false)
      by (unfold accepts; now rewrite Hnan, exceeds_deadband_diag).
    now rewrite R.
  - now rewrite A.
Qed.

(** X7: a jump between a finite value and an infinity is always taken: the
    sample is stored and the dependent outputs are recomputed. *)
Theorem infinite_jump_accepted (ru : RixUtilities) (sl : slot)
    (r : response) (self : Ioc_rix_sp1k1_calc) (v : float) :
  slot_value sl self = Some v ->
  (is_finite v = true /\ is_infinity (data r) = true) \/
  (is_infinity v = true /\ is_finite (data r) = true) ->
  callback ru sl r self = accepted ru sl r self.
Proof.
  intros Hv H. rewrite callback_unfold, guard_accepts, Hv. unfold accepts.
  now rewrite (exceeds_deadband_infinite v (data r) H), orb_true_r.
Qed.

(** * Beyond the claims: what holds of every reachable instance *)

Lemma default_held_callback ru sl r self :
  default_held self -> default_held (state_of (callback ru sl r self)).
Proof.
  intros IH.
  pose proof (IH Energy ENERGY (or_introl eq_refl)) as IH1.
  pose proof (IH Energy CFF (or_intror (or_introl eq_refl))) as IH2.
  pose proof (IH Bandwidth BANDWIDTH (or_introl eq_refl)) as IH3.
  pose proof (IH Grating GRATING (or_introl eq_refl)) as IH4.
  clear IH. intros o pv. revert IH1 IH2 IH3 IH4.
  unfold holds_default, unset.
  destruct self as [g m x h e c b gr], r as [d ts].
  destruct sl; open_callback;
    try (cbn; intros IH1 IH2 IH3 IH4;
         destruct o; cbn; intros Hin;
         repeat match type of Hin with
           | _ \/ _ => destruct Hin as [<-|Hin]
           | False => destruct Hin
           end; cbn; assumption);
    run_step; split_slots g m x h; cbn; split_calls ru;
    intros IH1 IH2 IH3 IH4;
    destruct o; cbn; intros Hin;
    repeat match type of Hin with
      | _ \/ _ => destruct Hin as [<-|Hin]
      | False => destruct Hin
      end; cbn; intros Hun; try discriminate Hun; auto.
Qed.

(** X8: in every instance the IOC can reach, by callbacks that returned or
    raised, an output that still misses one of its required slots holds
    its defaults: 0 (or the declared 0.0) for energy, cff and bandwidth,
    the empty string for the grating. *)
Theorem reachable_default_held (ru : RixUtilities) (self : Ioc_rix_sp1k1_calc) :
  reachable ru self -> default_held self.
Proof.
  induction 1 as [|self sl r _ IH].
  - intros o pv _ _. now right.
  - now apply default_held_callback.
Qed.

Lemma in_sync_callback ru sl r self :
  never_raises ru -> in_sync ru self -> in_sync ru (state_of (callback ru sl r self)).
Proof.
  intros (NE & NB & NG). unfold in_sync.
  destruct self as [g m x h e c b gr], r as [d ts].
  destruct sl; open_callback; try (cbn; tauto);
    run_step; split_slots g m x h; cbn; split_calls ru;
    intros (IH1 & IH2 & IH3);
    try match goal with
      | N : exists v, Raised _ = Returned v |- _ =>
          destruct N as [? Hv]; discriminate Hv
      | E : calc_E ru ?a ?b = Raised _ |- _ =>
          destruct (NE a b) as [? Hv]; rewrite Hv in E; discriminate E
      | E : calc_BW ru ?a ?b ?c = Raised _ |- _ =>
          destruct (NB a b c) as [? Hv]; rewrite Hv in E; discriminate E
      | E : get_grating ru tt = Raised _ |- _ =>
          destruct NG as [? Hv]; rewrite Hv in E; discriminate E
      end;
    (split; [|split]); intros;
    repeat match goal with
      | H : Some _ = Some _ |- _ => injection H as <-
      | H : None = Some _ |- _ => discriminate H
      | H : None <> None |- _ => destruct H; reflexivity
      end;
    auto; try (apply IH3; discriminate).
Qed.

(** X9: with a calculation module that always answers, every reachable
    instance is in step with its slots: once both pitches are set, energy
    and cff are what [calc_E] gives for them; once the exit gap is set as
    well, the bandwidth is what [calc_BW] gives; once the grating
    horizontal position is set, the grating is what [get_grating] gives. *)
Theorem reachable_in_sync (ru : RixUtilities) (self : Ioc_rix_sp1k1_calc) :
  never_raises ru -> reachable ru self -> in_sync ru self.
Proof.
  intros NR. induction 1 as [|self sl r _ IH].
  - repeat split; cbn; intros; try discriminate. now destruct H.
  - now apply in_sync_callback.
Qed.



(** * Beyond the claims: the recompute steps, one at a time and together *)

(** X11: a recompute step is all or nothing on its own records: when it
    returns it has written each of them once, in order and with the given
    timestamp; when it raises it has written nothing and left the instance
    as it was.  Either way it changes no slot. *)
Theorem recompute_all_or_nothing (ru : RixUtilities) (o : output) (ts : float)
    (self : Ioc_rix_sp1k1_calc) :
  (outcome_of (recompute ru o ts self) = Returned tt ->
     written_records (trace_of (recompute ru o ts self)) = records o /\
     Forall (stamped ts) (trace_of (recompute ru o ts self))) /\
  (forall e, outcome_of (recompute ru o ts self) = Raised e ->
     state_of (recompute ru o ts self) = self /\
     written_records (trace_of (recompute ru o ts self)) = []) /\
  (forall sl, slot_value sl (state_of (recompute ru o ts self)) = slot_value sl self).
Proof.
  destruct self as [g m x h e c b gr].
  destruct o; run_step; split_slots g m x h; cbn; split_calls ru;
    (split;
     [ intros H;
       first [discriminate H | split; [reflexivity|repeat constructor]]
     | split;
       [ intros e' H; first [discriminate H | split; reflexivity]
       | intros sl; destruct sl; reflexivity ] ]).
Qed.

Ltac same_answers :=
  repeat match goal with
    | H : Returned (_, _) = Returned (_, _) |- _ => injection H as <- <-
    | H : Returned _ = Returned _ |- _ => injection H as <-
    | H : Raised _ = Raised _ |- _ => injection H as <-
    | H : Returned _ = Raised _ |- _ => discriminate H
    | H : Raised _ = Returned _ |- _ => discriminate H
    end.

Lemma accepted_commute_g_h ru sl r1 r2 self :
  slot_eqb sl G_H = false ->
  state_of (accepted ru G_H r2 (state_of (accepted ru sl r1 self)))
    = state_of (accepted ru sl r1 (state_of (accepted ru G_H r2 self))).
Proof.
  unfold accepted, store.
  destruct self as [g m x h e c b gr], r1 as [d1 t1], r2 as [d2 t2].
  destruct sl; try discriminate; intros _;
    cbn [dependents recompute_all recompute data metadata_timestamp];
    run_step; split_slots g m x h; cbn; split_calls ru; same_answers;
    reflexivity.
Qed.

(** X12: a sample of the grating horizontal position and a sample of any
    other signal can be handled in either order: the instance afterwards
    is the same, whether the calculations returned or raised. *)
Theorem g_h_callback_commutes (ru : RixUtilities) (sl : slot)
    (r1 r2 : response) (self : Ioc_rix_sp1k1_calc) :
  slot_eqb sl G_H = false ->
  state_of (callback ru G_H r2 (state_of (callback ru sl r1 self)))
    = state_of (callback ru sl r1 (state_of (callback ru G_H r2 self))).
Proof.
  intros H.
  assert (H' : slot_eqb G_H sl = false) by now destruct sl.
  rewrite (callback_unfold ru G_H r2 (state_of (callback ru sl r1 self))).
  rewrite (callback_unfold ru sl r1 (state_of (callback ru G_H r2 self))).
  rewrite !slot_after_callback, H, H'. cbn [andb].
  rewrite (callback_unfold ru sl r1 self), (callback_unfold ru G_H r2 self).
  destruct (is_None_or_not_isclose (slot_value sl self) (data r1)),
    (is_None_or_not_isclose (slot_value G_H self) (data r2));
    try reflexivity.
  now apply accepted_commute_g_h.
Qed.

(** X13: in a pitch callback the bandwidth step waits for the energy step:
    when the sample is taken and [calc_E] raises on the pitches, the
    callback ends there with the sample stored, no record written and
    [calc_BW] never called, even with the exit gap set. *)
Theorem energy_failure_blocks_bandwidth (ru : RixUtilities) (sl : slot)
    (r : response) (self : Ioc_rix_sp1k1_calc) (g_pi m_pi : float) (e : exn) :
  sl = G_PI \/ sl = M_PI ->
  accepts (slot_value sl self) (data r) = true ->
  g_pi_value (set_slot sl (data r) self) = Some g_pi ->
  m_pi_value (set_slot sl (data r) self) = Some m_pi ->
  calc_E ru g_pi m_pi = Raised e ->
  callback ru sl r self
    = (Raised e, set_slot sl (data r) self, [Call_calc_E g_pi m_pi]).
Proof.
  intros Hsl Hacc Hg Hm HE.
  rewrite callback_unfold, guard_accepts, Hacc.
  unfold accepted. rewrite store_bind.
  destruct self as [g m x h e0 c b gr], r as [d ts].
  destruct Hsl as [-> | ->]; cbn in Hg, Hm;
    try (injection Hg as <-); try (injection Hm as <-); subst;
    cbn [dependents recompute_all recompute set_slot data metadata_timestamp];
    run_step; now rewrite HE.
Qed.

(** * The further theorems at concrete inputs *)

Lemma callback_writes_its_slot_only_witness :
  slot_eqb M_PI G_PI = false /\
  slot_value M_PI (state_of (callback sample_utilities G_PI
                               {| data := 11; metadata_timestamp := 3 |} both_pitches))
    = slot_value M_PI both_pitches.
Proof.
  split; [reflexivity|].
  apply (proj1 (proj2 (callback_writes_its_slot_only sample_utilities G_PI
                         {| data := 11; metadata_timestamp := 3 |} both_pitches))).
  reflexivity.
Defined.

Lemma callback_records_frame_witness :
  may_write G_PI GRATING = false /\
  get_record GRATING (state_of (callback sample_utilities G_PI
                                  {| data := 11; metadata_timestamp := 3 |} all_slots))
    = get_record GRATING all_slots.
Proof.
  split; [reflexivity|].
  apply (callback_records_frame sample_utilities G_PI
           {| data := 11; metadata_timestamp := 3 |} all_slots GRATING).
  reflexivity.
Defined.

Lemma callback_written_records_witness :
  outcome_of (callback sample_utilities G_PI
                {| data := 11; metadata_timestamp := 3 |} all_slots) = Returned tt /\
  written_records (trace_of (callback sample_utilities G_PI
                               {| data := 11; metadata_timestamp := 3 |} all_slots))
    = [ENERGY; CFF; BANDWIDTH].
Proof.
  split; [reflexivity|].
  apply (callback_written_records sample_utilities G_PI
           {| data := 11; metadata_timestamp := 3 |} all_slots).
  reflexivity.
Defined.

Lemma repeated_sample_ignored_witness :
  is_nan 11 = false /\
  callback sample_utilities G_PI {| data := 11; metadata_timestamp := 4 |}
    (state_of (callback sample_utilities G_PI
                 {| data := 11; metadata_timestamp := 3 |} all_slots))
  = (Returned tt,
     state_of (callback sample_utilities G_PI
                 {| data := 11; metadata_timestamp := 3 |} all_slots), []).
Proof.
  split; [reflexivity|].
  apply (repeated_sample_ignored sample_utilities G_PI
           {| data := 11; metadata_timestamp := 3 |}
           {| data := 11; metadata_timestamp := 4 |} all_slots); reflexivity.
Defined.

Lemma infinite_jump_accepted_witness :
  slot_value G_PI both_pitches = Some 10%float /\
  is_finite 10 = true /\ is_infinity infinity = true /\
  callback sample_utilities G_PI
    {| data := infinity; metadata_timestamp := 3 |} both_pitches
  = accepted sample_utilities G_PI
      {| data := infinity; metadata_timestamp := 3 |} both_pitches.
Proof.
  split; [reflexivity|]. split; [reflexivity|]. split; [reflexivity|].
  apply (infinite_jump_accepted sample_utilities G_PI
           {| data := infinity; metadata_timestamp := 3 |} both_pitches 10);
    [reflexivity|left; split; reflexivity].
Defined.

Lemma reachable_default_held_witness :
  reachable sample_utilities (state_of (after_g_pi sample_utilities 1)) /\
  default_held (state_of (after_g_pi sample_utilities 1)).
Proof.
  assert (R : reachable sample_utilities (state_of (after_g_pi sample_utilities 1)))
    by exact (reachable_callback sample_utilities __init__ G_PI
                {| data := 10; metadata_timestamp := 1 |}
                (reachable_init sample_utilities)).
  split; [exact R|].
  exact (reachable_default_held sample_utilities _ R).
Defined.

Lemma reachable_in_sync_witness :
  never_raises sample_utilities /\
  reachable sample_utilities (state_of (after_m_pi sample_utilities 1 2)) /\
  in_sync sample_utilities (state_of (after_m_pi sample_utilities 1 2)).
Proof.
  assert (N : never_raises sample_utilities)
    by (repeat split; intros; eexists; reflexivity).
  assert (R : reachable sample_utilities (state_of (after_m_pi sample_utilities 1 2)))
    by exact (reachable_callback sample_utilities _ M_PI
                {| data := 5; metadata_timestamp := 2 |}
                (reachable_callback sample_utilities __init__ G_PI
                   {| data := 10; metadata_timestamp := 1 |}
                   (reachable_init sample_utilities))).
  split; [exact N|]. split; [exact R|].
  exact (reachable_in_sync sample_utilities _ N R).
Defined.


Lemma recompute_all_or_nothing_witness :
  outcome_of (recompute failing_utilities Bandwidth 3 all_slots)
    = Raised (Exception "ZeroDivisionError") /\
  state_of (recompute failing_utilities Bandwidth 3 all_slots) = all_slots.
Proof.
  split; [reflexivity|].
  apply (proj1 (proj2 (recompute_all_or_nothing failing_utilities Bandwidth 3 all_slots))
               (Exception "ZeroDivisionError")).
  reflexivity.
Defined.

Lemma g_h_callback_commutes_witness :
  slot_eqb EXIT_GAP G_H = false /\
  state_of (callback sample_utilities G_H {| data := 2; metadata_timestamp := 6 |}
              (state_of (callback sample_utilities EXIT_GAP
                           {| data := 3; metadata_timestamp := 5 |} both_pitches)))
  = state_of (callback sample_utilities EXIT_GAP {| data := 3; metadata_timestamp := 5 |}
                (state_of (callback sample_utilities G_H
                             {| data := 2; metadata_timestamp := 6 |} both_pitches))).
Proof.
  split; [reflexivity|].
  apply (g_h_callback_commutes sample_utilities EXIT_GAP
           {| data := 3; metadata_timestamp := 5 |}
           {| data := 2; metadata_timestamp := 6 |} both_pitches).
  reflexivity.
Defined.

Lemma energy_failure_blocks_bandwidth_witness :
  accepts (slot_value G_PI all_slots) 11 = true /\
  callback no_energy_utilities G_PI {| data := 11; metadata_timestamp := 3 |} all_slots
  = (Raised (Exception "ValueError"), set_slot G_PI 11 all_slots, [Call_calc_E 11 5]).
Proof.
  split; [reflexivity|].
  apply (energy_failure_blocks_bandwidth no_energy_utilities G_PI
           {| data := 11; metadata_timestamp := 3 |} all_slots 11 5
           (Exception "ValueError"));
    [left; reflexivity|reflexivity|reflexivity|reflexivity|reflexivity].
Defined.
